(** * The Flutter bridge: a JSON-RPC adapter over stdin/stdout

    A shallow embedding of [python_bridge/flutter_bridge.py] (class
    [FlutterBridge]) and the properties of its request loop, its dispatch
    table and its sixteen method handlers.

    Python values that travel over the wire are JSON values; the bridge
    object is a record; a handler is a computation in a state-and-exception
    monad over the bridge, the outside world and a log of the calls made to
    the core; the run loop is a recursion over the lines that
    [sys.stdin.readline] returns. *)

From Stdlib Require Import String Ascii List ZArith Bool Lia.
From Stdlib Require Import DecimalString.
Import ListNotations.
Open Scope string_scope.
Open Scope list_scope.

Set Implicit Arguments.
Set Warnings "-register-all".

(** ** Python values *)

(** What [json.loads] produces: [None], [bool], [int], [float], [str],
    [list] and [dict] with [str] keys.  A float is named by its [repr]; a
    dict is the list of its items in insertion order, each key once; a
    [str] is a sequence of code points below 256. *)
Inductive json : Type :=
| JNull
| JBool (b : bool)
| JInt (z : Z)
| JFloat (repr : string)
| JStr (s : string)
| JArr (items : list json)
| JObj (items : list (string * json)).

(** [type(v).__name__] *)
Definition type_name (v : json) : string :=
  match v with
  | JNull => "NoneType"
  | JBool _ => "bool"
  | JInt _ => "int"
  | JFloat _ => "float"
  | JStr _ => "str"
  | JArr _ => "list"
  | JObj _ => "dict"
  end.

(** [bool(v)], the test behind [if not v] *)
Definition truthy (v : json) : bool :=
  match v with
  | JNull => false
  | JBool b => b
  | JInt z => negb (Z.eqb z 0)
  | JFloat r => negb (String.eqb r "0.0" || String.eqb r "-0.0")
  | JStr s => negb (String.eqb s EmptyString)
  | JArr l => match l with [] => false | _ => true end
  | JObj l => match l with [] => false | _ => true end
  end.

(** Exceptions, all subclasses of [Exception]. *)
Inductive exn : Type :=
| ValueError (msg : string)
| KeyError (key : string)
| AttributeError (msg : string)
| TypeError (msg : string)
| JSONDecodeError (msg : string)
| OtherError (msg : string).   (* raised by the core or a library; [msg] is [str(e)] *)

(** [str(e)], what an f-string prints for [{e}]; a [KeyError] prints the
    [repr] of its key. *)
Definition str_exn (e : exn) : string :=
  match e with
  | ValueError m => m
  | KeyError k => "'" ++ k ++ "'"
  | AttributeError m => m
  | TypeError m => m
  | JSONDecodeError m => m
  | OtherError m => m
  end.

Inductive outcome (A : Type) : Type :=
| Return (a : A)
| Raise (e : exn).
Arguments Return {A} a.
Arguments Raise {A} e.

(** *** dict operations *)

Fixpoint lookup (A : Type) (k : string) (d : list (string * A)) : option A :=
  match d with
  | [] => None
  | (k', v) :: d' => if String.eqb k k' then Some v else lookup k d'
  end.


(** [d.get(k, default)] on a dict *)
Definition dict_get (d : list (string * json)) (k : string) (default : json) : json :=
  match lookup k d with Some v => v | None => default end.

(** [v.get(k, default)] on any value: only a dict has [get]. *)
Definition py_get (v : json) (k : string) (default : json) : outcome json :=
  match v with
  | JObj d => Return (dict_get d k default)
  | _ => Raise (AttributeError ("'" ++ type_name v ++ "' object has no attribute 'get'"))
  end.

(** [v[k]] with a [str] key, on any value *)
Definition py_getitem (v : json) (k : string) : outcome json :=
  match v with
  | JObj d => match lookup k d with
              | Some x => Return x
              | None => Raise (KeyError k)
              end
  | JArr _ => Raise (TypeError "list indices must be integers or slices, not str")
  | JStr _ => Raise (TypeError "string indices must be integers, not 'str'")
  | _ => Raise (TypeError ("'" ++ type_name v ++ "' object is not subscriptable"))
  end.

(** *** str operations *)

(** [c.isspace()] for the code points below 256 *)
Definition isspace (c : ascii) : bool :=
  let n := nat_of_ascii c in
  (((9 <=? n) && (n <=? 13)) || ((28 <=? n) && (n <=? 32))
   || (n =? 133) || (n =? 160))%nat.

Fixpoint lstrip (s : string) : string :=
  match s with
  | EmptyString => EmptyString
  | String c s' => if isspace c then lstrip s' else s
  end.

Fixpoint rstrip (s : string) : string :=
  match s with
  | EmptyString => EmptyString
  | String c s' =>
      match rstrip s' with
      | EmptyString => if isspace c then EmptyString else String c EmptyString
      | r => String c r
      end
  end.

(** [s.strip()] *)
Definition strip (s : string) : string := rstrip (lstrip s).

Definition is_empty (s : string) : bool :=
  match s with EmptyString => true | _ => false end.

(** [str(z)] for an [int] *)
Definition str_int (z : Z) : string := NilZero.string_of_int (Z.to_int z).

(** [str(v)] for the values that can be a dict key ([None], [bool], [int],
    [float], [str]); this is what [f'{method}'] prints. *)
Definition str_atom (v : json) : string :=
  match v with
  | JNull => "None"
  | JBool true => "True"
  | JBool false => "False"
  | JInt z => str_int z
  | JFloat r => r
  | JStr s => s
  | JArr _ | JObj _ => EmptyString
  end.


(** ** The world outside the bridge *)

(** The modules the handlers import on demand. *)
Inductive pymodule : Type :=
| src_crypto_identity
| src_storage_keystore
| src_client_contacts.

(** The core and the libraries, as the bridge sees them: opaque types and
    operations on an outside world.  Every operation of the core may raise;
    [fingerprint_hex] and [public_key_hex] are attributes of an identity. *)

Class Collaborators : Type := {
  World : Type;
  Identity : Type;
  ContactManager : Type;
  RelayClient : Type;
  TorManager : Type;
  CoverTraffic : Type;
  fingerprint_hex : Identity -> string;
  public_key_hex : Identity -> string;
  (* json.loads, json.dumps, str(uuid.uuid4()) *)
  json_loads : string -> outcome json;
  json_dumps : json -> string;
  uuid4 : World -> World * string;
  (* from <module> import <name> *)
  import_module : pymodule -> World -> World * outcome unit;
  (* Identity.generate(), Identity.from_public_key_hex(hex) *)
  Identity_generate : World -> World * outcome Identity;
  Identity_from_public_key_hex : json -> World -> World * outcome Identity;
  (* KeyStore(path).save(identity, passphrase), KeyStore(path).load(passphrase) *)
  KeyStore_save : string -> Identity -> json -> World -> World * outcome unit;
  KeyStore_load : string -> json -> World -> World * outcome Identity;
  (* ContactManager(path) *)
  ContactManager_init : string -> World -> World * outcome ContactManager;
  (* cm.add(label=, public_key=, onion_address=, mailbox_id=).to_dict() *)
  ContactManager_add :
    ContactManager -> json -> json -> json -> json -> World -> World * outcome json;
  (* cm.remove(contact_id), cm.verify(contact_id) *)
  ContactManager_remove : ContactManager -> json -> World -> World * outcome unit;
  ContactManager_verify : ContactManager -> json -> World -> World * outcome unit;
  (* [c.to_dict() for c in cm.list_all()] *)
  ContactManager_list_all : ContactManager -> World -> World * outcome (list json);
}.

(** What the bridge asked of the outside, in order. *)
Inductive call : Type :=
| CallImport (m : pymodule)
| CallIdentityGenerate
| CallIdentityFromPublicKeyHex (hex : json)
| CallKeyStoreSave (path : string) (passphrase : json)
| CallKeyStoreLoad (path : string) (passphrase : json)
| CallContactManager (path : string)
| CallContactsAdd (label public_key onion_address mailbox_id : json)
| CallContactsRemove (contact_id : json)
| CallContactsVerify (contact_id : json)
| CallContactsListAll
| CallUuid4.

(** A call that reaches the core (identity provider, keystore, contact
    store), as opposed to an import or the uuid library. *)
Definition touches_core (c : call) : bool :=
  match c with
  | CallImport _ | CallUuid4 => false
  | _ => true
  end.

Definition touches_contacts (c : call) : bool :=
  match c with
  | CallContactManager _ | CallContactsAdd _ _ _ _ | CallContactsRemove _
  | CallContactsVerify _ | CallContactsListAll => true
  | _ => false
  end.

Section Bridge.

Context {core : Collaborators}.

(** ** The bridge object *)

(** The fields [__init__] assigns, but for [_methods], which is a constant
    (below). *)
Record FlutterBridge : Type := {
  data_dir : string;
  _identity : option Identity;
  _contacts : option ContactManager;
  _relay_client : option RelayClient;
  _tor_manager : option TorManager;
  _cover_traffic : option CoverTraffic;
  _running : bool;
}.

(** [Path(data_dir) if data_dir else Path('data')]; every collaborator
    field starts as [None].  (The directory is created before the fields
    are assigned; a path is the string that names it.) *)
Definition __init__ (dir : option string) : FlutterBridge :=
  {| data_dir := match dir with
                 | Some d => if is_empty d then "data" else d
                 | None => "data"
                 end;
     _identity := None;
     _contacts := None;
     _relay_client := None;
     _tor_manager := None;
     _cover_traffic := None;
     _running := true |}.

(** [dir / name] *)
Definition path_join (dir name : string) : string := dir ++ "/" ++ name.

(** The bridge, the outside world, and the log of calls made so far. *)
Record machine : Type := {
  self : FlutterBridge;
  world : World;
  log : list call;
}.

(** ** The handler monad: state and exceptions *)

Definition M (A : Type) : Type := machine -> outcome A * machine.

Definition ret {A} (a : A) : M A := fun m => (Return a, m).

Definition raise {A} (e : exn) : M A := fun m => (Raise e, m).

Definition bind {A B} (c : M A) (k : A -> M B) : M B :=
  fun m =>
    match c m with
    | (Return a, m') => k a m'
    | (Raise e, m') => (Raise e, m')
    end.

Definition lift {A} (o : outcome A) : M A := fun m => (o, m).

Definition get_self : M FlutterBridge := fun m => (Return (self m), m).

Definition put_self (b : FlutterBridge) : M unit :=
  fun m => (Return tt, {| self := b; world := world m; log := log m |}).

(** One call to the outside: it is logged, then the world answers. *)
Definition perform {A} (c : call) (f : World -> World * outcome A) : M A :=
  fun m =>
    let (w, r) := f (world m) in
    (r, {| self := self m; world := w; log := log m ++ [c] |}).

End Bridge.

Declare Scope py_scope.
Delimit Scope py_scope with py.
Notation "x <- c1 ;; c2" := (bind c1 (fun x => c2))
  (at level 61, c1 at next level, right associativity) : py_scope.
Notation "c1 ;; c2" := (bind c1 (fun _ => c2))
  (at level 61, right associativity) : py_scope.

Section Handlers.

Context {core : Collaborators}.
Local Open Scope py_scope.

Definition import_ (m : pymodule) : M unit :=
  perform (CallImport m) (import_module m).

Definition set_identity (i : option Identity) : M unit :=
  b <- get_self ;;
  put_self {| data_dir := data_dir b; _identity := i; _contacts := _contacts b;
              _relay_client := _relay_client b; _tor_manager := _tor_manager b;
              _cover_traffic := _cover_traffic b; _running := _running b |}.

Definition set_contacts (c : option ContactManager) : M unit :=
  b <- get_self ;;
  put_self {| data_dir := data_dir b; _identity := _identity b; _contacts := c;
              _relay_client := _relay_client b; _tor_manager := _tor_manager b;
              _cover_traffic := _cover_traffic b; _running := _running b |}.

Definition set_running (r : bool) : M unit :=
  b <- get_self ;;
  put_self {| data_dir := data_dir b; _identity := _identity b; _contacts := _contacts b;
              _relay_client := _relay_client b; _tor_manager := _tor_manager b;
              _cover_traffic := _cover_traffic b; _running := r |}.

(** The dict the three identity handlers return. *)
Definition identity_info (identity : Identity) : json :=
  JObj [("fingerprint", JStr (fingerprint_hex identity));
        ("public_key", JStr (public_key_hex identity));
        ("is_loaded", JBool true)].

(** *** Identity operations *)

Definition _generate_identity (params : json) : M json :=
  import_ src_crypto_identity ;;
  identity <- perform CallIdentityGenerate Identity_generate ;;
  passphrase <- lift (py_get params "passphrase" (JStr EmptyString)) ;;
  if negb (truthy passphrase) then raise (ValueError "Passphrase is required") else
  import_ src_storage_keystore ;;
  b <- get_self ;;
  let path := path_join (data_dir b) "keystore.enc" in
  perform (CallKeyStoreSave path passphrase) (KeyStore_save path identity passphrase) ;;
  set_identity (Some identity) ;;
  ret (identity_info identity).

Definition _load_identity (params : json) : M json :=
  passphrase <- lift (py_get params "passphrase" (JStr EmptyString)) ;;
  if negb (truthy passphrase) then raise (ValueError "Passphrase is required") else
  import_ src_storage_keystore ;;
  b <- get_self ;;
  let path := path_join (data_dir b) "keystore.enc" in
  identity <- perform (CallKeyStoreLoad path passphrase) (KeyStore_load path passphrase) ;;
  set_identity (Some identity) ;;
  ret (identity_info identity).

(** The dict [_export_identity] serialises. *)
Definition export_dict (identity : Identity) : json :=
  JObj [("public_key", JStr (public_key_hex identity));
        ("fingerprint", JStr (fingerprint_hex identity))].

Definition _export_identity (params : json) : M json :=
  b <- get_self ;;
  match _identity b with
  | None => raise (ValueError "No identity loaded")
  | Some identity =>
      let export_data := json_dumps (export_dict identity) in
      ret (JObj [("export_data", JStr export_data)])
  end.

(** [json.loads(v)] inside a handler: a value that is not a [str] is a
    [TypeError]. *)
Definition loads_value (v : json) : outcome json :=
  match v with
  | JStr s => json_loads s
  | _ => Raise (TypeError ("the JSON object must be str, bytes or bytearray, not "
                           ++ type_name v))
  end.

Definition _import_identity (params : json) : M json :=
  import_data <- lift (py_get params "import_data" (JStr EmptyString)) ;;
  passphrase <- lift (py_get params "passphrase" (JStr EmptyString)) ;;
  if negb (truthy import_data) || negb (truthy passphrase)
  then raise (ValueError "Import data and passphrase required") else
  data <- lift (loads_value import_data) ;;
  import_ src_crypto_identity ;;
  hex <- lift (py_getitem data "public_key") ;;
  identity <- perform (CallIdentityFromPublicKeyHex hex) (Identity_from_public_key_hex hex) ;;
  set_identity (Some identity) ;;
  ret (identity_info identity).

(** *** Contact operations *)

(** [if self._contacts is None: self._contacts = ContactManager(...)],
    then the handle now stored. *)
Definition ensure_contacts : M ContactManager :=
  b <- get_self ;;
  match _contacts b with
  | Some cm => ret cm
  | None =>
      let path := path_join (data_dir b) "contacts" in
      cm <- perform (CallContactManager path) (ContactManager_init path) ;;
      set_contacts (Some cm) ;;
      ret cm
  end.

Definition _add_contact (params : json) : M json :=
  import_ src_client_contacts ;;
  cm <- ensure_contacts ;;
  label <- lift (py_getitem params "label") ;;
  public_key <- lift (py_getitem params "public_key") ;;
  onion_address <- lift (py_get params "onion_address" (JStr EmptyString)) ;;
  mailbox_id <- lift (py_get params "mailbox_id" (JStr EmptyString)) ;;
  perform (CallContactsAdd label public_key onion_address mailbox_id)
          (ContactManager_add cm label public_key onion_address mailbox_id).

Definition _remove_contact (params : json) : M json :=
  b <- get_self ;;
  match _contacts b with
  | None => raise (ValueError "Contacts not initialized")
  | Some cm =>
      contact_id <- lift (py_getitem params "contact_id") ;;
      perform (CallContactsRemove contact_id) (ContactManager_remove cm contact_id) ;;
      ret (JObj [("success", JBool true)])
  end.

Definition _list_contacts (params : json) : M json :=
  import_ src_client_contacts ;;
  cm <- ensure_contacts ;;
  contacts <- perform CallContactsListAll (ContactManager_list_all cm) ;;
  ret (JObj [("contacts", JArr contacts)]).

Definition _verify_contact (params : json) : M json :=
  b <- get_self ;;
  match _contacts b with
  | None => raise (ValueError "Contacts not initialized")
  | Some cm =>
      contact_id <- lift (py_getitem params "contact_id") ;;
      perform (CallContactsVerify contact_id) (ContactManager_verify cm contact_id) ;;
      ret (JObj [("success", JBool true)])
  end.

(** *** Messaging operations *)

Definition _send_message (params : json) : M json :=
  b <- get_self ;;
  match _identity b with
  | None => raise (ValueError "No identity loaded")
  | Some _ =>
      contact_id <- lift (py_getitem params "contact_id") ;;
      text <- lift (py_getitem params "text") ;;
      message_id <- perform CallUuid4 (fun w => let (w', u) := uuid4 w in (w', Return u)) ;;
      ret (JObj [("id", JStr message_id);
                 ("contact_id", contact_id);
                 ("is_outgoing", JBool true);
                 ("type", JStr "text");
                 ("text_content", text);
                 ("delivery_status", JStr "sent");
                 ("sequence_index", JInt 0)])
  end.

Definition _send_voice_message (params : json) : M json :=
  b <- get_self ;;
  match _identity b with
  | None => raise (ValueError "No identity loaded")
  | Some _ =>
      message_id <- perform CallUuid4 (fun w => let (w', u) := uuid4 w in (w', Return u)) ;;
      contact_id <- lift (py_getitem params "contact_id") ;;
      file_path <- lift (py_get params "file_path" (JStr EmptyString)) ;;
      ret (JObj [("id", JStr message_id);
                 ("contact_id", contact_id);
                 ("is_outgoing", JBool true);
                 ("type", JStr "voice");
                 ("voice_data_path", file_path);
                 ("delivery_status", JStr "sent");
                 ("sequence_index", JInt 0)])
  end.

Definition _poll_mailbox (params : json) : M json :=
  ret (JObj [("messages", JArr [])]).

Definition _get_messages (params : json) : M json :=
  contact_id <- lift (py_get params "contact_id" (JStr EmptyString)) ;;
  ret (JObj [("messages", JArr [])]).

(** *** Network operations *)

Definition is_not_none {A} (o : option A) : bool :=
  match o with Some _ => true | None => false end.

Definition _get_network_status (params : json) : M json :=
  b <- get_self ;;
  let tor_connected := is_not_none (_tor_manager b) in
  ret (JObj [("tor_status", JStr (if tor_connected then "connected" else "disconnected"));
             ("tor_circuit_info", JNull);
             ("relays", JArr []);
             ("mailbox", JNull);
             ("cover_traffic_active", JBool (is_not_none (_cover_traffic b)));
             ("cover_packets_sent", JInt 0);
             ("real_packets_sent", JInt 0)]).

Definition _configure_relay (params : json) : M json :=
  ret (JObj [("success", JBool true)]).

Definition _configure_mailbox (params : json) : M json :=
  ret (JObj [("success", JBool true)]).

(** *** Lifecycle *)

Definition _shutdown (params : json) : M json :=
  set_running false ;;
  ret (JObj [("success", JBool true)]).

(** ** The dispatch table *)

Definition _methods : list (string * (json -> M json)) :=
  [("generate_identity", _generate_identity);
   ("load_identity", _load_identity);
   ("export_identity", _export_identity);
   ("import_identity", _import_identity);
   ("add_contact", _add_contact);
   ("remove_contact", _remove_contact);
   ("list_contacts", _list_contacts);
   ("verify_contact", _verify_contact);
   ("send_message", _send_message);
   ("send_voice_message", _send_voice_message);
   ("poll_mailbox", _poll_mailbox);
   ("get_messages", _get_messages);
   ("get_network_status", _get_network_status);
   ("configure_relay", _configure_relay);
   ("configure_mailbox", _configure_mailbox);
   ("shutdown", _shutdown)].

(** [self._methods.get(method)]: hashing a [list] or a [dict] raises; a key
    that is not a [str] equals none of the names. *)
Definition methods_get (method : json) : outcome (option (json -> M json)) :=
  match method with
  | JStr name => Return (lookup name _methods)
  | JArr _ | JObj _ => Raise (TypeError ("unhashable type: '" ++ type_name method ++ "'"))
  | _ => Return None
  end.

(** ** The process: the bridge with its two output streams *)

(** [stdout] holds the documents written, one line each, oldest first;
    [stderr] the exceptions whose traceback was printed. *)
Record process : Type := {
  vm : machine;
  stdout : list json;
  stderr : list exn;
}.

Definition write_stdout (doc : json) (p : process) : process :=
  {| vm := vm p; stdout := stdout p ++ [doc]; stderr := stderr p |}.

Definition print_exc (e : exn) (p : process) : process :=
  {| vm := vm p; stdout := stdout p; stderr := stderr p ++ [e] |}.

Definition result_response (request_id result : json) : json :=
  JObj [("jsonrpc", JStr "2.0"); ("id", request_id); ("result", result)].

Definition error_response (request_id : json) (code : Z) (message : string) : json :=
  JObj [("jsonrpc", JStr "2.0");
        ("id", request_id);
        ("error", JObj [("code", JInt code); ("message", JStr message)])].

Definition _send_result (request_id result : json) (p : process) : process :=
  write_stdout (result_response request_id result) p.

Definition _send_error (request_id : json) (code : Z) (message : string)
    (p : process) : process :=
  write_stdout (error_response request_id code message) p.

Definition _send_notification (method : string) (params : json) (p : process) : process :=
  write_stdout (JObj [("jsonrpc", JStr "2.0"); ("method", JStr method);
                      ("params", params)]) p.

(** ** The run loop *)

(** What the loop does with a request that decoded to a dict. *)
Definition dispatch (request : list (string * json)) (p : process) : process :=
  let request_id := dict_get request "id" JNull in
  let method := dict_get request "method" (JStr EmptyString) in
  let params := dict_get request "params" (JObj []) in
  match methods_get method with
  | Raise e => print_exc e p
  | Return None =>
      _send_error request_id (-32601) ("Method not found: " ++ str_atom method) p
  | Return (Some handler) =>
      match handler params (vm p) with
      | (Return result, m) =>
          _send_result request_id result
            {| vm := m; stdout := stdout p; stderr := stderr p |}
      | (Raise e, m) =>
          _send_error request_id (-32000) ("Internal error: " ++ str_exn e)
            {| vm := m; stdout := stdout p; stderr := stderr p |}
      end
  end.

(** One turn of the [while], for a line [readline] returned (not the empty
    string, which is the end of the input). *)
Definition iteration (line : string) (p : process) : process :=
  let line := strip line in
  if is_empty line then p else
  match json_loads line with
  | Raise (JSONDecodeError msg) => _send_error JNull (-32700) ("Parse error: " ++ msg) p
  | Raise e => print_exc e p
  | Return (JObj request) => dispatch request p
  | Return v =>
      print_exc (AttributeError ("'" ++ type_name v ++ "' object has no attribute 'get'")) p
  end.

(** [run]: the lines of [stdin] are the successive results of [readline];
    past the last one, and at an empty one, [readline] has returned [''] and
    the loop breaks. *)
Fixpoint run (stdin : list string) (p : process) : process :=
  if negb (_running (self (vm p))) then p else
  match stdin with
  | [] => p
  | line :: rest => if is_empty line then p else run rest (iteration line p)
  end.

(** The process [main] starts. *)
Definition start (dir : option string) (w : World) : process :=
  {| vm := {| self := __init__ dir; world := w; log := [] |};
     stdout := [];
     stderr := [] |}.

End Handlers.

(** ** What the properties speak of *)

Section Vocabulary.

Context {core : Collaborators}.

(** [request.get('method', '')] *)
Definition method_of (request : list (string * json)) : json :=
  dict_get request "method" (JStr EmptyString).

(** [doc[k]] when [doc] is a dict that has the key *)
Definition field (k : string) (doc : json) : option json :=
  match doc with
  | JObj items => lookup k items
  | _ => None
  end.



(** A computation that leaves [_tor_manager] and [_cover_traffic] alone. *)
Definition keeps_network {A} (c : M A) : Prop :=
  forall m,
    _tor_manager (self (snd (c m))) = _tor_manager (self m) /\
    _cover_traffic (self (snd (c m))) = _cover_traffic (self m).

(** The states of the process between two turns of the loop. *)
Inductive reachable : process -> Prop :=
| reach_start : forall dir w, reachable (start dir w)
| reach_iteration : forall line p, reachable p -> reachable (iteration line p).

(** What [_get_network_status] answers while nothing is connected. *)
Definition network_down : json :=
  JObj [("tor_status", JStr "disconnected");
        ("tor_circuit_info", JNull);
        ("relays", JArr []);
        ("mailbox", JNull);
        ("cover_traffic_active", JBool false);
        ("cover_packets_sent", JInt 0);
        ("real_packets_sent", JInt 0)].

End Vocabulary.


(** ** What the invariants speak of *)

Section Invariants.

Context {core : Collaborators}.

(** The codes the loop puts in an error response. *)
Definition error_codes : list Z := [(-32700)%Z; (-32601)%Z; (-32000)%Z].

(** A document the loop may write: a result response, or an error response
    with one of the three codes. *)
Definition is_response (doc : json) : Prop :=
  exists request_id,
    (exists result, doc = result_response request_id result)
    \/ (exists code message,
          In code error_codes /\ doc = error_response request_id code message).

(** A computation under which a property of the machine, once true, stays
    true, whether it returns or raises. *)
Definition invariant_of (I : machine -> Prop) {A} (c : M A) : Prop :=
  forall m, I m -> I (snd (c m)).

(** A computation that only adds to the call log, and only calls that pass
    [ok]. *)
Definition calls_only (ok : call -> bool) {A} (c : M A) : Prop :=
  forall m, exists added,
    log (snd (c m)) = log m ++ added /\ forallb ok added = true.

Definition touches_keystore (c : call) : bool :=
  match c with
  | CallKeyStoreSave _ _ | CallKeyStoreLoad _ _ => true
  | _ => false
  end.

(** The path a call carries, when it carries one, is the keystore file or
    the contacts directory under [dir]. *)
Definition within_data_dir (dir : string) (c : call) : Prop :=
  match c with
  | CallKeyStoreSave path _ | CallKeyStoreLoad path _ =>
      path = path_join dir "keystore.enc"
  | CallContactManager path => path = path_join dir "contacts"
  | _ => True
  end.

(** The data directory is [dir] and every call so far stayed under it. *)
Definition confined (dir : string) (m : machine) : Prop :=
  data_dir (self m) = dir /\ Forall (within_data_dir dir) (log m).

(** The two handlers that may change the bridge object and then raise. *)
Definition builds_contacts (name : string) : bool :=
  String.eqb name "add_contact" || String.eqb name "list_contacts".

(** The four handlers of the contact operations. *)
Definition contact_method (name : string) : bool :=
  String.eqb name "add_contact" || String.eqb name "remove_contact"
  || String.eqb name "list_contacts" || String.eqb name "verify_contact".

(** The two handlers that go to the keystore. *)
Definition keystore_method (name : string) : bool :=
  String.eqb name "generate_identity" || String.eqb name "load_identity".

(** No line is the empty string, [readline]'s answer at the end of the
    input. *)
Definition before_eof (stdin : list string) : Prop :=
  Forall (fun line => is_empty line = false) stdin.


End Invariants.
(** ** A small core to run the bridge against *)

Module Sample.

Definition dq : string := String "034"%char EmptyString.
Definition nl : string := String "010"%char EmptyString.
Definition bs : string := String "092"%char EmptyString.

Definition hex_digit (n : nat) : ascii :=
  match get n "0123456789abcdef" with
  | Some c => c
  | None => "0"%char
  end.

(** One character inside a JSON string, as [json.dumps] writes it with
    [ensure_ascii]. *)
Definition escape (c : ascii) : string :=
  let n := nat_of_ascii c in
  if (n =? 34)%nat then bs ++ dq
  else if (n =? 92)%nat then bs ++ bs
  else if (n =? 10)%nat then bs ++ "n"
  else if (n =? 13)%nat then bs ++ "r"
  else if (n =? 9)%nat then bs ++ "t"
  else if (n =? 8)%nat then bs ++ "b"
  else if (n =? 12)%nat then bs ++ "f"
  else if ((n <? 32) || (126 <? n))%nat
       then bs ++ "u00"
            ++ String (hex_digit (n / 16)) (String (hex_digit (n mod 16)) EmptyString)
  else String c EmptyString.

Fixpoint escape_all (s : string) : string :=
  match s with
  | EmptyString => EmptyString
  | String c s' => escape c ++ escape_all s'
  end.

Definition quote (s : string) : string := dq ++ escape_all s ++ dq.

(** [json.dumps] with its default separators. *)
Fixpoint dumps (v : json) : string :=
  match v with
  | JNull => "null"
  | JBool true => "true"
  | JBool false => "false"
  | JInt z => str_int z
  | JFloat r => r
  | JStr s => quote s
  | JArr l =>
      ("[" ++ (fix items (l : list json) : string :=
                 match l with
                 | [] => EmptyString
                 | [x] => dumps x
                 | x :: l' => (dumps x ++ ", " ++ items l')%string
                 end) l ++ "]")%string
  | JObj d =>
      ("{" ++ (fix items (d : list (string * json)) : string :=
                 match d with
                 | [] => EmptyString
                 | [(k, x)] => (quote k ++ ": " ++ dumps x)%string
                 | (k, x) :: d' => (quote k ++ ": " ++ dumps x ++ ", " ++ items d')%string
                 end) d ++ "}")%string
  end.

Record identity : Type := { fp : string; pk : string }.

Record world : Type := {
  generated : nat;                       (* keys the identity provider made *)
  keystore : option (identity * json);   (* what keystore.enc holds *)
  contacts : list json;                  (* the contact store *)
  uuids : nat;                           (* uuids drawn *)
}.

Definition fresh : world :=
  {| generated := 0; keystore := None; contacts := []; uuids := 0 |}.

Definition request (id : Z) (method : string) (params : json) : json :=
  JObj [("jsonrpc", JStr "2.0"); ("id", JInt id); ("method", JStr method);
        ("params", params)].

Definition generated_identity : identity := {| fp := "9f86d081"; pk := "a1b2c3d4" |}.

(** The documents the examples put on the wire or decode. *)
Definition documents : list json :=
  [ request 1 "generate_identity" (JObj []);
    request 2 "add_contact" (JObj []);
    request 3 "get_messages" (JArr []);
    request 4 "no_such_method" (JObj [("x", JInt 1)]);
    request 5 "shutdown" (JObj []);
    request 6 "poll_mailbox" (JObj []);
    request 7 "generate_identity" (JObj [("passphrase", JStr "hunter2")]);
    request 8 "send_message" (JObj [("contact_id", JStr "c1"); ("text", JStr "hi")]);
    JObj [("id", JInt 9)];
    JArr [];
    JObj [("public_key", JStr (pk generated_identity));
          ("fingerprint", JStr (fp generated_identity))] ].

(** A decoder that agrees with [json.loads] on the documents above, on the
    empty text and on text such as [not json], where no JSON value begins. *)
Definition loads (s : string) : outcome json :=
  match find (fun d => String.eqb (dumps d) s) documents with
  | Some d => Return d
  | None => Raise (JSONDecodeError "Expecting value: line 1 column 1 (char 0)")
  end.

Definition the_uuid (n : nat) : string :=
  "3f2b8c1e-0000-4000-8000-" ++ str_int (100000000000 + Z.of_nat n).

(** The core at work: keys are generated, the keystore keeps the last
    identity saved, the contact store grows. *)
Definition contact (n : nat) (label public_key onion_address mailbox_id : json) : json :=
  JObj [("contact_id", JStr ("c" ++ str_int (Z.of_nat n)));
        ("label", label); ("public_key", public_key);
        ("onion_address", onion_address); ("mailbox_id", mailbox_id);
        ("verified", JBool false)].

Definition generate (w : world) : world * outcome identity :=
  ({| generated := S (generated w); keystore := keystore w;
      contacts := contacts w; uuids := uuids w |},
   Return generated_identity).

Definition from_public_key_hex (hex : json) (w : world) : world * outcome identity :=
  match hex with
  | JStr h => (w, Return {| fp := "fp-" ++ h; pk := h |})
  | _ => (w, Raise (TypeError ("fromhex() argument must be str, not " ++ type_name hex)))
  end.

Definition save (path : string) (i : identity) (passphrase : json) (w : world)
    : world * outcome unit :=
  ({| generated := generated w; keystore := Some (i, passphrase);
      contacts := contacts w; uuids := uuids w |},
   Return tt).

Definition load (path : string) (passphrase : json) (w : world)
    : world * outcome identity :=
  match keystore w with
  | Some (i, p) =>
      if String.eqb (dumps p) (dumps passphrase) then (w, Return i)
      else (w, Raise (OtherError "Decryption failed"))
  | None => (w, Raise (OtherError "Keystore not found"))
  end.

Definition add (cm : unit) (label public_key onion_address mailbox_id : json)
    (w : world) : world * outcome json :=
  let c := contact (length (contacts w)) label public_key onion_address mailbox_id in
  ({| generated := generated w; keystore := keystore w;
      contacts := contacts w ++ [c]; uuids := uuids w |},
   Return c).

Definition draw_uuid (w : world) : world * string :=
  ({| generated := generated w; keystore := keystore w;
      contacts := contacts w; uuids := S (uuids w) |},
   the_uuid (uuids w)).

(** The core installed next to the bridge: every import finds its module. *)
Definition installed : Collaborators :=
  {| World := world;
     Identity := identity;
     ContactManager := unit;
     RelayClient := unit;
     TorManager := unit;
     CoverTraffic := unit;
     fingerprint_hex := fp;
     public_key_hex := pk;
     json_loads := loads;
     json_dumps := dumps;
     uuid4 := draw_uuid;
     import_module := fun _ w => (w, Return tt);
     Identity_generate := generate;
     Identity_from_public_key_hex := from_public_key_hex;
     KeyStore_save := save;
     KeyStore_load := load;
     ContactManager_init := fun _ w => (w, Return tt);
     ContactManager_add := add;
     ContactManager_remove := fun _ _ w => (w, Return tt);
     ContactManager_verify := fun _ _ w => (w, Return tt);
     ContactManager_list_all := fun _ w => (w, Return (contacts w)) |}.

(** The bridge on its own, the package [src] not on the path: every import
    of the core raises [ModuleNotFoundError]. *)
Definition detached : Collaborators :=
  {| World := world;
     Identity := identity;
     ContactManager := unit;
     RelayClient := unit;
     TorManager := unit;
     CoverTraffic := unit;
     fingerprint_hex := fp;
     public_key_hex := pk;
     json_loads := loads;
     json_dumps := dumps;
     uuid4 := draw_uuid;
     import_module := fun _ w => (w, Raise (OtherError "No module named 'src'"));
     Identity_generate := generate;
     Identity_from_public_key_hex := from_public_key_hex;
     KeyStore_save := save;
     KeyStore_load := load;
     ContactManager_init := fun _ w => (w, Return tt);
     ContactManager_add := add;
     ContactManager_remove := fun _ _ w => (w, Return tt);
     ContactManager_verify := fun _ _ w => (w, Return tt);
     ContactManager_list_all := fun _ w => (w, Return (contacts w)) |}.

(** A request as one line of input. *)
Definition frame (doc : json) : string := dumps doc ++ nl.

(** The process just started, with the core installed and without. *)
Definition booted : @process installed := @start installed None fresh.
Definition booted_detached : @process detached := @start detached None fresh.

End Sample.

(** ** Properties *)

Section Properties.

Context {core : Collaborators}.

(** *** The loop *)

Lemma run_stopped (stdin : list string) (p : process) :
  _running (self (vm p)) = false -> run stdin p = p.
Proof.
  intros H. destruct stdin; simpl; rewrite H; reflexivity.
Qed.


Lemma run_nil (p : process) : run [] p = p.
Proof.
  simpl. destruct (negb _); reflexivity.
Qed.

Lemma empty_name_unregistered : lookup EmptyString _methods = None.
Proof. reflexivity. Qed.



(** *** Unknown methods *)


(** *** Lines that are not JSON *)


(** *** One response per request *)


(** *** Shutdown *)


(** *** The stubs *)

(** C8, as amended. Whatever [params] is, [_poll_mailbox] returns
    [{'messages': []}] and [_configure_relay] and [_configure_mailbox]
    return [{'success': True}]; [_get_messages] returns [{'messages': []}]
    for every [params] that is a dict.  None of them raises there or
    changes the bridge, the world or the call log. *)
Theorem stubs_return_neutral_results (m : machine) (params : json) :
  _poll_mailbox params m = (Return (JObj [("messages", JArr [])]), m)
  /\ _configure_relay params m = (Return (JObj [("success", JBool true)]), m)
  /\ _configure_mailbox params m = (Return (JObj [("success", JBool true)]), m)
  /\ (forall items,
        _get_messages (JObj items) m = (Return (JObj [("messages", JArr [])]), m)).
Proof.
  repeat split.
Qed.

(** *** The network fields *)

Lemma keeps_ret {A} (a : A) : keeps_network (ret a).
Proof. intros m; split; reflexivity. Qed.

Lemma keeps_raise {A} (e : exn) : keeps_network (@raise _ A e).
Proof. intros m; split; reflexivity. Qed.

Lemma keeps_lift {A} (o : outcome A) : keeps_network (lift o).
Proof. intros m; split; reflexivity. Qed.

Lemma keeps_get_self : keeps_network get_self.
Proof. intros m; split; reflexivity. Qed.

Lemma keeps_perform {A} (c : call) (f : World -> World * outcome A) :
  keeps_network (perform c f).
Proof.
  intros m. unfold perform. destruct (f (world m)); split; reflexivity.
Qed.

Lemma keeps_bind {A B} (c : M A) (k : A -> M B) :
  keeps_network c -> (forall a, keeps_network (k a)) -> keeps_network (bind c k).
Proof.
  intros Hc Hk m. unfold bind. specialize (Hc m).
  destruct (c m) as [[a | e] m']; simpl in Hc.
  - destruct (Hk a m') as [H1 H2]. destruct Hc as [H3 H4].
    split; congruence.
  - exact Hc.
Qed.

Lemma keeps_set_identity (i : option Identity) : keeps_network (set_identity i).
Proof. intros m; split; reflexivity. Qed.

Lemma keeps_set_contacts (c : option ContactManager) : keeps_network (set_contacts c).
Proof. intros m; split; reflexivity. Qed.

Lemma keeps_set_running (r : bool) : keeps_network (set_running r).
Proof. intros m; split; reflexivity. Qed.

(** Walks down a handler, one bind, branch or primitive at a time. *)
Ltac keeps :=
  repeat first
    [ apply keeps_ret | apply keeps_raise | apply keeps_lift | apply keeps_get_self
    | apply keeps_perform | apply keeps_set_identity | apply keeps_set_contacts
    | apply keeps_set_running
    | apply keeps_bind; [| intro]
    | match goal with
      | |- keeps_network (if ?b then _ else _) => destruct b
      | |- keeps_network (match ?x with _ => _ end) => destruct x
      | |- keeps_network (?f _) => unfold f
      | |- keeps_network ?f => unfold f
      end ].

Lemma handlers_keep_network :
  Forall (fun entry => forall params, keeps_network (snd entry params)) _methods.
Proof.
  unfold _methods.
  repeat (apply Forall_cons; [intros params; simpl; keeps |]).
  apply Forall_nil.
Qed.

Lemma lookup_Forall {A} (P : string * A -> Prop) (d : list (string * A)) k v :
  Forall P d -> lookup k d = Some v -> exists k', P (k', v).
Proof.
  induction 1 as [| [k' v'] d HP _ IH]; simpl; [discriminate |].
  destruct (String.eqb k k').
  - intros H; inversion H; subst. eauto.
  - exact IH.
Qed.

Lemma methods_get_keeps_network (method : json) (handler : json -> M json) :
  methods_get method = Return (Some handler) ->
  forall params, keeps_network (handler params).
Proof.
  destruct method; simpl; try discriminate.
  intros H; inversion H as [Hl].
  destruct (lookup_Forall _ handlers_keep_network Hl) as [k' Hk]. exact Hk.
Qed.

Lemma iteration_keeps_network (line : string) (p : process) :
  _tor_manager (self (vm (iteration line p))) = _tor_manager (self (vm p))
  /\ _cover_traffic (self (vm (iteration line p))) = _cover_traffic (self (vm p)).
Proof.
  unfold iteration. destruct (is_empty (strip line)); [split; reflexivity |].
  destruct (json_loads (strip line)) as [v | e].
  - destruct v; try (split; reflexivity).
    unfold dispatch.
    destruct (methods_get (dict_get items "method" (JStr EmptyString)))
      as [[handler |] | e] eqn:Hget; try (split; reflexivity).
    pose proof (methods_get_keeps_network _ Hget
                  (dict_get items "params" (JObj [])) (vm p)) as Hk.
    destruct (handler (dict_get items "params" (JObj [])) (vm p)) as [[r | e] m];
      exact Hk.
  - destruct e; split; reflexivity.
Qed.

Lemma reachable_network_idle (p : process) :
  reachable p ->
  _tor_manager (self (vm p)) = None /\ _cover_traffic (self (vm p)) = None.
Proof.
  induction 1 as [dir w | line p _ [IH1 IH2]].
  - split; reflexivity.
  - destruct (iteration_keeps_network line p) as [H1 H2].
    split; congruence.
Qed.

Lemma run_reachable (stdin : list string) (p : process) :
  reachable p -> reachable (run stdin p).
Proof.
  revert p. induction stdin as [| line rest IH]; intros p Hp; cbn [run].
  - destruct (negb _); exact Hp.
  - destruct (negb _); [exact Hp |].
    destruct (is_empty line); [exact Hp |].
    apply IH. apply reach_iteration. exact Hp.
Qed.

(** C9. In every state the process reaches, from the start through any
    lines of input, [_tor_manager] and [_cover_traffic] are still [None],
    so [_get_network_status] returns the same dict whatever [params] is:
    tor disconnected, no cover traffic, no relays, null mailbox and
    circuit info, zero packets; and it changes nothing. *)
Theorem network_status_is_constant (p : process) (params : json) :
  reachable p ->
  _tor_manager (self (vm p)) = None
  /\ _cover_traffic (self (vm p)) = None
  /\ _get_network_status params (vm p) = (Return network_down, vm p).
Proof.
  intros Hp. destruct (reachable_network_idle Hp) as [Htor Hcover].
  repeat split; try assumption.
  unfold _get_network_status, bind, get_self, ret.
  rewrite Htor, Hcover. reflexivity.
Qed.

(** *** Sending a message *)

(** C10. With an identity loaded, [_send_message] returns a result for any
    [contact_id] and [text] the params hold: the id is the uuid just
    drawn, [contact_id] and [text] are passed through as they came, the
    delivery status is [sent]. The bridge object is unchanged, and the
    only call made is the one to [uuid4]: neither the contact store nor
    any other part of the core is asked. *)
Theorem send_message_succeeds
    (m : machine) (items : list (string * json)) (i : Identity)
    (contact_id text : json) :
  _identity (self m) = Some i ->
  lookup "contact_id" items = Some contact_id ->
  lookup "text" items = Some text ->
  _send_message (JObj items) m
    = (Return (JObj [("id", JStr (snd (uuid4 (world m))));
                     ("contact_id", contact_id);
                     ("is_outgoing", JBool true);
                     ("type", JStr "text");
                     ("text_content", text);
                     ("delivery_status", JStr "sent");
                     ("sequence_index", JInt 0)]),
       {| self := self m; world := fst (uuid4 (world m)); log := log m ++ [CallUuid4] |})
  /\ touches_core CallUuid4 = false
  /\ touches_contacts CallUuid4 = false.
Proof.
  intros Hid Hc Ht. split; [| split; reflexivity].
  unfold _send_message, bind, get_self, lift, perform, ret. rewrite Hid.
  simpl. rewrite Hc, Ht. destruct (uuid4 (world m)) as [w u]. reflexivity.
Qed.

(** *** Generate, then export *)

Lemma generate_identity_returns
    (params : json) (m m1 : machine) (r : json) :
  _generate_identity params m = (Return r, m1) ->
  exists i, _identity (self m1) = Some i /\ r = identity_info i.
Proof.
  unfold _generate_identity, import_, bind, perform, lift, get_self, set_identity,
    put_self, ret, raise.
  destruct (import_module src_crypto_identity (world m)) as [w1 [[] | e1]];
    [| discriminate].
  simpl. destruct (Identity_generate w1) as [w2 [i | e2]]; [| discriminate].
  destruct (py_get params "passphrase" (JStr EmptyString)) as [pw | e3];
    [| discriminate].
  destruct (negb (truthy pw)); [discriminate |].
  simpl. destruct (import_module src_storage_keystore w2) as [w3 [[] | e4]];
    [| discriminate].
  simpl. destruct (KeyStore_save _ i pw w3) as [w4 [[] | e5]]; [| discriminate].
  intros H. inversion H; subst. exists i. split; reflexivity.
Qed.

(** C6. After [_generate_identity] has returned [r], in any later state
    that still holds the identity it stored, [_export_identity] returns
    [{'export_data': text}] and changes nothing; [text] is the
    serialisation of a dict which, once decoded ([json.loads] undoing
    [json.dumps] on that dict), has the [public_key] and the [fingerprint]
    that [r] has, both present. *)
Theorem export_after_generate_round_trip
    (params params' : json) (m m1 m2 : machine) (r : json) (i : Identity) :
  _generate_identity params m = (Return r, m1) ->
  _identity (self m1) = Some i ->
  _identity (self m2) = _identity (self m1) ->
  json_loads (json_dumps (export_dict i)) = Return (export_dict i) ->
  exists text decoded,
    _export_identity params' m2 = (Return (JObj [("export_data", JStr text)]), m2)
    /\ json_loads text = Return decoded
    /\ field "public_key" decoded = field "public_key" r
    /\ field "fingerprint" decoded = field "fingerprint" r
    /\ field "public_key" r = Some (JStr (public_key_hex i))
    /\ field "fingerprint" r = Some (JStr (fingerprint_hex i)).
Proof.
  intros Hgen Hi Hsame Hloads.
  destruct (generate_identity_returns _ _ Hgen) as [i' [Hi' Hr]].
  assert (i' = i) by congruence. subst i' r.
  exists (json_dumps (export_dict i)), (export_dict i).
  split.
  - unfold _export_identity, bind, get_self, ret. rewrite Hsame, Hi. reflexivity.
  - split; [exact Hloads |]. repeat split.
Qed.

(** *** Generating without a passphrase *)

(** With no passphrase [_generate_identity] raises and leaves the bridge
    object as it was; the error is the missing passphrase once the import
    and [Identity.generate()] have gone through, and by then both are in
    the call log. *)
Lemma generate_identity_without_passphrase (m : machine) (items : list (string * json)) :
  truthy (dict_get items "passphrase" (JStr EmptyString)) = false ->
  exists e,
    fst (_generate_identity (JObj items) m) = Raise e
    /\ self (snd (_generate_identity (JObj items) m)) = self m
    /\ (forall w1 w2 i,
          import_module src_crypto_identity (world m) = (w1, Return tt) ->
          Identity_generate w1 = (w2, Return i) ->
          e = ValueError "Passphrase is required"
          /\ world (snd (_generate_identity (JObj items) m)) = w2
          /\ log (snd (_generate_identity (JObj items) m))
             = log m ++ [CallImport src_crypto_identity] ++ [CallIdentityGenerate]).
Proof.
  intros Hpw.
  unfold _generate_identity, import_, bind, perform, lift, raise. simpl.
  destruct (import_module src_crypto_identity (world m)) as [w1 [[] | e1]] eqn:Himp;
    simpl.
  - destruct (Identity_generate w1) as [w2 [i | e2]] eqn:Hgen; simpl.
    + rewrite Hpw. simpl. eexists. split; [reflexivity |]. split; [reflexivity |].
      intros w1' w2' i' H1 H2. inversion H1; subst.
      rewrite Hgen in H2. inversion H2; subst.
      rewrite <- app_assoc. repeat split.
    + eexists. split; [reflexivity |]. split; [reflexivity |].
      intros w1' w2' i' H1 H2. inversion H1; subst.
      rewrite Hgen in H2. discriminate.
  - eexists. split; [reflexivity |]. split; [reflexivity |].
    intros w1' w2' i' H1. discriminate.
Qed.

End Properties.

(** ** The bridge at work on concrete input *)



(** C2, the code at a request without passphrase while the core cannot be
    imported: the response is an internal error, but its message is the
    import's, not the missing passphrase; [_load_identity], which checks the
    passphrase first, names it on the same input. *)
Theorem generate_identity_reports_the_import_error :
  let line := Sample.frame (Sample.request 1 "generate_identity" (JObj [])) in
  stdout (run [line] Sample.booted_detached)
    = [error_response (JInt 1) (-32000) "Internal error: No module named 'src'"]
  /\ self (vm (run [line] Sample.booted_detached)) = self (vm Sample.booted_detached)
  /\ fst (_load_identity (JObj []) (vm Sample.booted_detached))
     = Raise (ValueError "Passphrase is required").
Proof.
  repeat split.
Qed.

(** C3, the code at two requests that lack a required parameter.
    [_generate_identity] has imported the identity provider and called
    [Identity.generate()] (the world has one more key) before it raises for
    the passphrase; [_add_contact] has built the [ContactManager] and stored
    it in [_contacts] before it raises [KeyError] for [label]. *)
Theorem collaborators_run_before_validation :
  _generate_identity (JObj []) (vm Sample.booted)
    = (Raise (ValueError "Passphrase is required"),
       {| self := self (vm Sample.booted);
          world := {| Sample.generated := 1; Sample.keystore := None;
                      Sample.contacts := []; Sample.uuids := 0 |};
          log := [CallImport src_crypto_identity; CallIdentityGenerate] |})
  /\ touches_core CallIdentityGenerate = true
  /\ fst (_add_contact (JObj []) (vm Sample.booted)) = Raise (KeyError "label")
  /\ _contacts (self (vm Sample.booted)) = None
  /\ _contacts (self (snd (_add_contact (JObj []) (vm Sample.booted)))) = Some tt
  /\ log (snd (_add_contact (JObj []) (vm Sample.booted)))
     = [CallImport src_client_contacts; CallContactManager "data/contacts"]
  /\ touches_core (CallContactManager "data/contacts") = true.
Proof.
  repeat split.
Qed.




(** C6 at the passphrase [hunter2], on the process just started. *)
Lemma export_after_generate_round_trip_witness :
  let params := JObj [("passphrase", JStr "hunter2")] in
  let m := vm Sample.booted in
  let r := identity_info (core := Sample.installed) Sample.generated_identity in
  let m1 := snd (_generate_identity params m) in
  _generate_identity params m = (Return r, m1)
  /\ _identity (self m1) = Some Sample.generated_identity
  /\ json_loads (Collaborators := Sample.installed)
       (json_dumps (Collaborators := Sample.installed)
          (export_dict (core := Sample.installed)
             Sample.generated_identity))
     = Return (export_dict (core := Sample.installed) Sample.generated_identity)
  /\ exists text decoded,
       _export_identity (JObj []) m1 = (Return (JObj [("export_data", JStr text)]), m1)
       /\ json_loads (Collaborators := Sample.installed) text = Return decoded
       /\ field "public_key" decoded = field "public_key" r
       /\ field "fingerprint" decoded = field "fingerprint" r
       /\ field "public_key" r = Some (JStr "a1b2c3d4")
       /\ field "fingerprint" r = Some (JStr "9f86d081").
Proof.
  intros params m r m1.
  assert (H1 : _generate_identity params m = (Return r, m1)) by reflexivity.
  assert (H2 : _identity (self m1) = Some Sample.generated_identity) by reflexivity.
  assert (H3 : json_loads (Collaborators := Sample.installed)
       (json_dumps (Collaborators := Sample.installed)
          (export_dict (core := Sample.installed)
             Sample.generated_identity))
               = Return (export_dict (core := Sample.installed)
                           Sample.generated_identity))
    by (vm_compute; reflexivity).
  split; [exact H1 |]. split; [exact H2 |]. split; [exact H3 |].
  exact (@export_after_generate_round_trip Sample.installed params (JObj [])
           m m1 m1 r Sample.generated_identity H1 H2 eq_refl H3).
Defined.


(** C8, the claim as first stated fails: with [params] a list,
    [_get_messages] raises [AttributeError], and the request is answered
    with an internal error. *)
Lemma get_messages_rejects_a_list :
  fst (_get_messages (JArr []) (vm Sample.booted))
    = Raise (AttributeError "'list' object has no attribute 'get'")
  /\ stdout (run [Sample.frame (Sample.request 3 "get_messages" (JArr []))] Sample.booted)
     = [error_response (JInt 3) (-32000)
          "Internal error: 'list' object has no attribute 'get'"].
Proof.
  repeat split.
Qed.

(** C9 after a [generate_identity] request. *)
Lemma network_status_is_constant_witness :
  let line := Sample.frame
                (Sample.request 7 "generate_identity"
                   (JObj [("passphrase", JStr "hunter2")])) in
  let p := iteration line Sample.booted in
  reachable p
  /\ _identity (self (vm p)) = Some Sample.generated_identity
  /\ _get_network_status (JObj []) (vm p) = (Return network_down, vm p).
Proof.
  intros line p.
  assert (H : reachable p)
    by (apply reach_iteration; exact (reach_start (core := Sample.installed) None Sample.fresh)).
  split; [exact H |]. split; [reflexivity |].
  exact (proj2 (proj2 (network_status_is_constant (JObj []) H))).
Defined.

(** C10 once an identity has been generated. *)
Lemma send_message_succeeds_witness :
  let line := Sample.frame
                (Sample.request 7 "generate_identity"
                   (JObj [("passphrase", JStr "hunter2")])) in
  let m := vm (iteration line Sample.booted) in
  let items := [("contact_id", JStr "nobody"); ("text", JStr "hi")] in
  _identity (self m) = Some Sample.generated_identity
  /\ fst (_send_message (JObj items) m)
     = Return (JObj [("id", JStr "3f2b8c1e-0000-4000-8000-100000000000");
                     ("contact_id", JStr "nobody");
                     ("is_outgoing", JBool true);
                     ("type", JStr "text");
                     ("text_content", JStr "hi");
                     ("delivery_status", JStr "sent");
                     ("sequence_index", JInt 0)])
  /\ self (snd (_send_message (JObj items) m)) = self m
  /\ log (snd (_send_message (JObj items) m)) = log m ++ [CallUuid4].
Proof.
  intros line m items.
  assert (H1 : _identity (self m) = Some Sample.generated_identity) by reflexivity.
  split; [exact H1 |].
  rewrite (proj1 (send_message_succeeds (core := Sample.installed) m items
                    (contact_id := JStr "nobody") (text := JStr "hi")
                    H1 eq_refl eq_refl)).
  repeat split.
Defined.

(** ** More properties of the loop and the handlers *)

Section Further.

Context {core : Collaborators}.

(** *** Tools *)

Lemma lookup_In {A} (k : string) (v : A) (d : list (string * A)) :
  lookup k d = Some v -> In (k, v) d.
Proof.
  induction d as [| [k' v'] d IH]; simpl; [discriminate |].
  destruct (String.eqb k k') eqn:E.
  - apply String.eqb_eq in E. intros H; inversion H; subst. left; reflexivity.
  - intros H. right. apply IH. exact H.
Qed.

Lemma table_all (P : string -> (json -> M json) -> Prop) :
  Forall (fun entry => P (fst entry) (snd entry)) _methods ->
  forall name handler, lookup name _methods = Some handler -> P name handler.
Proof.
  intros H name handler Hl. apply lookup_In in Hl.
  rewrite Forall_forall in H. exact (H _ Hl).
Qed.

(** Opens a handler down to the answers of the outside world. *)
Ltac open_handler :=
  unfold _generate_identity, _load_identity, _export_identity, _import_identity,
    _add_contact, _remove_contact, _list_contacts, _verify_contact, _send_message,
    _send_voice_message, _poll_mailbox, _get_messages, _get_network_status,
    _configure_relay, _configure_mailbox, _shutdown, ensure_contacts, import_,
    set_identity, set_contacts, set_running, bind, ret, raise, lift, get_self,
    put_self, perform;
  cbn beta iota zeta delta [fst snd self world log];
  repeat (match goal with
          | |- context [match ?x with _ => _ end] =>
              lazymatch x with
              | context [match _ with _ => _ end] => fail
              | _ => destruct x eqn:?
              end
          end;
          cbn beta iota zeta delta [fst snd self world log]).

Lemma others_keep_running :
  Forall (fun entry =>
            String.eqb (fst entry) "shutdown" = false ->
            forall params,
              invariant_of (fun m => _running (self m) = true) (snd entry params))
         _methods.
Proof.
  unfold _methods.
  repeat (apply Forall_cons;
          [cbn [fst snd]; intros Hname params m Hm;
           try discriminate Hname; open_handler; try assumption |]).
  apply Forall_nil.
Qed.


(** *** The loop as a whole *)

Lemma iteration_output (line : string) (p : process) :
  (stdout (iteration line p) = stdout p
   /\ (stderr (iteration line p) = stderr p
       \/ exists e, stderr (iteration line p) = stderr p ++ [e]))
  \/ (exists doc,
        is_response doc
        /\ stdout (iteration line p) = stdout p ++ [doc]
        /\ stderr (iteration line p) = stderr p).
Proof.
  unfold iteration. destruct (is_empty (strip line)); [left; auto |].
  destruct (json_loads (strip line)) as [v | e].
  - destruct v as [| | | | | |request]; try (left; split; [| right; eexists]; reflexivity).
    unfold dispatch.
    destruct (methods_get (dict_get request "method" (JStr EmptyString)))
      as [[handler |] | e]; [| | left; split; [| right; eexists]; reflexivity].
    + destruct (handler (dict_get request "params" (JObj [])) (vm p)) as [[result | e] m];
        right; eexists; (split; [| split; reflexivity]); eexists.
      * left. eexists. reflexivity.
      * right. do 2 eexists. split; [| reflexivity]. simpl. auto.
    + right. eexists. split; [| split; reflexivity]. eexists. right.
      do 2 eexists. split; [| reflexivity]. simpl. auto.
  - destruct e; try (left; split; [| right; eexists]; reflexivity).
    right. eexists. split; [| split; reflexivity]. eexists. right.
    do 2 eexists. split; [| reflexivity]. simpl. auto.
Qed.

Lemma run_output (stdin : list string) (p : process) :
  exists out err,
    stdout (run stdin p) = stdout p ++ out
    /\ stderr (run stdin p) = stderr p ++ err
    /\ length out + length err <= length stdin
    /\ Forall is_response out.
Proof.
  revert p. induction stdin as [| line rest IH]; intros p; cbn [run].
  - exists [], []. destruct (negb _); rewrite !app_nil_r; repeat split; auto.
  - destruct (negb (_running (self (vm p)))).
    { exists [], []. rewrite !app_nil_r. repeat split; simpl; auto; lia. }
    destruct (is_empty line).
    { exists [], []. rewrite !app_nil_r. repeat split; simpl; auto; lia. }
    destruct (IH (iteration line p)) as [out [err [Ho [He [Hlen Hall]]]]].
    destruct (iteration_output line p) as [[Hso [Hse | [e Hse]]] | [doc [Hdoc [Hso Hse]]]].
    + exists out, err. rewrite Ho, He, Hso, Hse. repeat split; simpl; auto; lia.
    + exists out, (e :: err). rewrite Ho, He, Hso, Hse, <- app_assoc.
      repeat split; simpl; auto; lia.
    + exists (doc :: out), err. rewrite Ho, He, Hso, Hse, <- app_assoc.
      repeat split; simpl; auto; lia.
Qed.

(** X1. The loop only appends to its two streams, and a line of input
    adds at most one line to one of them: after any input, stdout and
    stderr are the old ones followed by no more new lines, together, than
    lines were given. *)
Theorem run_writes_at_most_one_line_per_line (stdin : list string) (p : process) :
  exists out err,
    stdout (run stdin p) = stdout p ++ out
    /\ stderr (run stdin p) = stderr p ++ err
    /\ length out + length err <= length stdin.
Proof.
  destruct (run_output stdin p) as [out [err [Ho [He [Hlen _]]]]].
  exists out, err. auto.
Qed.

(** X2. Whatever the input, every document the process has written to
    stdout is a response: it carries [jsonrpc], the id and either a
    result, or an error whose code is -32700, -32601 or -32000.  No
    notification and no other code is ever written. *)
Theorem run_writes_only_responses (dir : option string) (w : World) (stdin : list string) :
  Forall is_response (stdout (run stdin (start dir w))).
Proof.
  destruct (run_output stdin (start dir w)) as [out [err [Ho [_ [_ Hall]]]]].
  rewrite Ho. exact Hall.
Qed.

(** X3. Reading on: when no line of a first batch is the empty string,
    running the loop on the batch followed by more lines is running it on
    the batch and then, from the state reached, on the rest. *)
Theorem run_app (first rest : list string) (p : process) :
  before_eof first ->
  run (first ++ rest) p = run rest (run first p).
Proof.
  intros H. revert p. induction H as [| line first Hline _ IH]; intros p.
  - rewrite run_nil. reflexivity.
  - cbn [app run]. destruct (negb (_running (self (vm p)))) eqn:Hr.
    + symmetry. apply run_stopped. destruct (_running (self (vm p))); [discriminate | reflexivity].
    + rewrite Hline. apply IH.
Qed.

(** X4. The end of the input ends the loop: once [readline] has returned
    the empty string, nothing that might follow is read. *)
Theorem eof_ends_the_loop (before after : list string) (p : process) :
  run (before ++ EmptyString :: after) p = run before p.
Proof.
  revert p. induction before as [| line before IH]; intros p; cbn [app run].
  - cbn [is_empty]. destruct (negb _); reflexivity.
  - destruct (negb _); [reflexivity |]. destruct (is_empty line); [reflexivity | apply IH].
Qed.

(** *** Invariants of the machine *)

Lemma iteration_invariant (I : machine -> Prop) :
  (forall name handler params,
      lookup name _methods = Some handler -> invariant_of I (handler params)) ->
  forall line p, I (vm p) -> I (vm (iteration line p)).
Proof.
  intros Htable line p Hp. unfold iteration.
  destruct (is_empty (strip line)); [exact Hp |].
  destruct (json_loads (strip line)) as [v | e].
  - destruct v as [| | | | | |request]; try exact Hp.
    unfold dispatch.
    destruct (dict_get request "method" (JStr EmptyString)) as [| | | |name| |];
      try exact Hp.
    cbn [methods_get]. destruct (lookup name _methods) as [handler |] eqn:Hl; [| exact Hp].
    pose proof (Htable _ _ (dict_get request "params" (JObj [])) Hl (vm p) Hp) as H.
    destruct (handler (dict_get request "params" (JObj [])) (vm p)) as [[r | e] m];
      exact H.
  - destruct e; exact Hp.
Qed.

Lemma run_invariant (I : machine -> Prop) :
  (forall line p, I (vm p) -> I (vm (iteration line p))) ->
  forall stdin p, I (vm p) -> I (vm (run stdin p)).
Proof.
  intros Hit stdin. induction stdin as [| line rest IH]; intros p Hp; cbn [run].
  - destruct (negb _); exact Hp.
  - destruct (negb _); [exact Hp |]. destruct (is_empty line); [exact Hp |].
    apply IH. apply Hit. exact Hp.
Qed.

Lemma handlers_keep_identity_loaded :
  Forall (fun entry =>
            forall params,
              invariant_of (fun m => _identity (self m) <> None) (snd entry params))
         _methods.
Proof.
  unfold _methods.
  repeat (apply Forall_cons;
          [cbn [fst snd]; intros params m Hm; open_handler;
           cbn; first [assumption | discriminate | congruence] |]).
  apply Forall_nil.
Qed.

(** X5. There is no way back from loaded: once an identity is loaded, an
    identity is loaded after every further line of input, whatever the
    requests and whether they succeed or fail. *)
Theorem identity_stays_loaded (stdin : list string) (p : process) :
  _identity (self (vm p)) <> None ->
  _identity (self (vm (run stdin p))) <> None.
Proof.
  apply (@run_invariant (fun m => _identity (self m) <> None)).
  apply (@iteration_invariant (fun m => _identity (self m) <> None)).
  intros name handler params Hl.
  exact (@table_all
           (fun _ h => forall q, invariant_of (fun m => _identity (self m) <> None) (h q))
           handlers_keep_identity_loaded name handler Hl params).
Qed.

Lemma handlers_keep_contacts (cm : ContactManager) :
  Forall (fun entry =>
            forall params,
              invariant_of (fun m => _contacts (self m) = Some cm) (snd entry params))
         _methods.
Proof.
  unfold _methods.
  repeat (apply Forall_cons;
          [cbn [fst snd]; intros params m Hm; open_handler;
           cbn; first [assumption | congruence] |]).
  apply Forall_nil.
Qed.

(** X6. The contact store is opened once: from the moment [_contacts]
    holds a [ContactManager], it holds that same one after every further
    line of input; no request replaces or drops it. *)
Theorem contacts_handle_is_kept
    (cm : ContactManager) (stdin : list string) (p : process) :
  _contacts (self (vm p)) = Some cm ->
  _contacts (self (vm (run stdin p))) = Some cm.
Proof.
  apply (@run_invariant (fun m => _contacts (self m) = Some cm)).
  apply (@iteration_invariant (fun m => _contacts (self m) = Some cm)).
  intros name handler params Hl.
  exact (@table_all
           (fun _ h => forall q, invariant_of (fun m => _contacts (self m) = Some cm) (h q))
           (handlers_keep_contacts cm) name handler Hl params).
Qed.


Lemma handlers_stay_confined (dir : string) :
  Forall (fun entry => forall params, invariant_of (confined dir) (snd entry params))
         _methods.
Proof.
  unfold _methods, confined.
  repeat (apply Forall_cons;
          [cbn [fst snd]; intros params m [<- Hlog]; open_handler;
           (split; [reflexivity |]);
           repeat (apply Forall_app; split); try assumption;
           repeat constructor |]).
  apply Forall_nil.
Qed.

(** X7. The bridge keeps to its data directory. From the start, after any
    input, [data_dir] is the one chosen at construction ([data] when none
    was given), and every keystore call in the log was made on
    [data_dir/keystore.enc] and every [ContactManager] built on
    [data_dir/contacts]: no request can point the core at another path. *)
Theorem paths_stay_in_the_data_dir (dir : option string) (w : World) (stdin : list string) :
  confined (data_dir (__init__ dir)) (vm (run stdin (start dir w))).
Proof.
  apply (@run_invariant (confined (data_dir (__init__ dir)))).
  - apply (@iteration_invariant (confined (data_dir (__init__ dir)))).
    intros name handler params Hl.
    exact (@table_all
             (fun _ h => forall q, invariant_of (confined (data_dir (__init__ dir))) (h q))
             (handlers_stay_confined _) name handler Hl params).
  - split; [reflexivity | apply Forall_nil].
Qed.

(** X8. Only a shutdown request stops the loop. If the running flag is set
    before a line and cleared after it, the line decoded to a dict whose
    method is [shutdown]; so no parse error, unknown method, handler
    failure or logged exception ever ends the loop. *)
Theorem only_shutdown_stops_the_loop (line : string) (p : process) :
  _running (self (vm p)) = true ->
  _running (self (vm (iteration line p))) = false ->
  exists request,
    json_loads (strip line) = Return (JObj request)
    /\ method_of request = JStr "shutdown".
Proof.
  intros Hrun. unfold iteration.
  destruct (is_empty (strip line)); [congruence |].
  destruct (json_loads (strip line)) as [v | e].
  - destruct v as [| | | | | |request]; try (cbn; congruence).
    intros Hstop. exists request. split; [reflexivity |].
    unfold dispatch in Hstop. fold (method_of request) in Hstop.
    destruct (method_of request) as [| | | |name| |]; try (cbn in Hstop; congruence).
    cbn [methods_get] in Hstop.
    destruct (lookup name _methods) as [handler |] eqn:Hl; [| cbn in Hstop; congruence].
    destruct (String.eqb name "shutdown") eqn:Hname.
    + apply String.eqb_eq in Hname. congruence.
    + pose proof (@table_all
                    (fun n h => String.eqb n "shutdown" = false ->
                                forall q, invariant_of (fun m => _running (self m) = true) (h q))
                    others_keep_running name handler Hl Hname
                    (dict_get request "params" (JObj [])) (vm p) Hrun) as H.
      destruct (handler (dict_get request "params" (JObj [])) (vm p)) as [[r | e] m];
        cbn in Hstop, H; congruence.
  - destruct e; cbn; congruence.
Qed.

Lemma failures_leave_the_bridge_table :
  Forall (fun entry =>
            builds_contacts (fst entry) = false ->
            forall params m e,
              fst (snd entry params m) = Raise e ->
              self (snd (snd entry params m)) = self m)
         _methods.
Proof.
  unfold _methods.
  repeat (apply Forall_cons;
          [cbn [fst snd]; intros Hname params m e;
           try discriminate Hname; open_handler;
           intros H; first [discriminate H | reflexivity] |]).
  apply Forall_nil.
Qed.

(** X9. A failed request changes nothing in the bridge object. For every
    registered handler other than [add_contact] and [list_contacts] (which
    may have stored a new [ContactManager] by then), when the handler
    raises, every field of the bridge, the loaded identity above all, is
    what it was before the call. *)
Theorem failed_handler_leaves_the_bridge
    (name : string) (handler : json -> M json) (params : json) (m : machine) (e : exn) :
  lookup name _methods = Some handler ->
  builds_contacts name = false ->
  fst (handler params m) = Raise e ->
  self (snd (handler params m)) = self m.
Proof.
  intros Hl Hname.
  exact (@table_all
           (fun n h => builds_contacts n = false ->
                       forall q m0 e0, fst (h q m0) = Raise e0 ->
                                       self (snd (h q m0)) = self m0)
           failures_leave_the_bridge_table name handler Hl Hname params m e).
Qed.

Lemma contact_calls_table :
  Forall (fun entry =>
            contact_method (fst entry) = false ->
            forall params,
              calls_only (fun c => negb (touches_contacts c)) (snd entry params))
         _methods.
Proof.
  unfold _methods.
  repeat (apply Forall_cons;
          [cbn [fst snd]; intros Hname params m;
           try discriminate Hname; open_handler;
           rewrite <- ?app_assoc;
           first [ exists []; split; [symmetry; apply app_nil_r | reflexivity]
                 | eexists; split; reflexivity ] |]).
  apply Forall_nil.
Qed.

Lemma keystore_calls_table :
  Forall (fun entry =>
            keystore_method (fst entry) = false ->
            forall params,
              calls_only (fun c => negb (touches_keystore c)) (snd entry params))
         _methods.
Proof.
  unfold _methods.
  repeat (apply Forall_cons;
          [cbn [fst snd]; intros Hname params m;
           try discriminate Hname; open_handler;
           rewrite <- ?app_assoc;
           first [ exists []; split; [symmetry; apply app_nil_r | reflexivity]
                 | eexists; split; reflexivity ] |]).
  apply Forall_nil.
Qed.

(** X10. Only the four contact operations reach the contact store: a
    handler registered under any other name only adds to the call log,
    and adds no [ContactManager] construction and no call to [add],
    [remove], [verify] or [list_all].  In particular [send_message] and
    [send_voice_message] never look the contact up. *)
Theorem contact_store_is_for_contact_methods
    (name : string) (handler : json -> M json) (params : json) :
  lookup name _methods = Some handler ->
  contact_method name = false ->
  calls_only (fun c => negb (touches_contacts c)) (handler params).
Proof.
  intros Hl Hname.
  exact (@table_all
           (fun n h => contact_method n = false ->
                       forall q, calls_only (fun c => negb (touches_contacts c)) (h q))
           contact_calls_table name handler Hl Hname params).
Qed.

(** X11. Only [generate_identity] and [load_identity] reach the keystore: a
    handler registered under any other name adds no keystore call to the
    log.  In particular [import_identity] asks for a passphrase but saves
    nothing, and [export_identity] reads nothing from disk. *)
Theorem keystore_is_for_generate_and_load
    (name : string) (handler : json -> M json) (params : json) :
  lookup name _methods = Some handler ->
  keystore_method name = false ->
  calls_only (fun c => negb (touches_keystore c)) (handler params).
Proof.
  intros Hl Hname.
  exact (@table_all
           (fun n h => keystore_method n = false ->
                       forall q, calls_only (fun c => negb (touches_keystore c)) (h q))
           keystore_calls_table name handler Hl Hname params).
Qed.


(** *** Identity handlers *)

(** X12. [_load_identity] and [_import_identity] check their parameters
    before anything else: with a passphrase that is missing or falsy (and,
    for the import, with import data that is missing or falsy) they raise
    the [ValueError] that names what is required, and the machine is
    exactly as before: no import was run, no call made, nothing logged. *)
Theorem load_and_import_validate_first (m : machine) (items : list (string * json)) :
  (truthy (dict_get items "passphrase" (JStr EmptyString)) = false ->
     _load_identity (JObj items) m = (Raise (ValueError "Passphrase is required"), m))
  /\ (truthy (dict_get items "import_data" (JStr EmptyString)) = false
      \/ truthy (dict_get items "passphrase" (JStr EmptyString)) = false ->
      _import_identity (JObj items) m
        = (Raise (ValueError "Import data and passphrase required"), m)).
Proof.
  split.
  - intros H. unfold _load_identity, bind, lift, raise. cbn [py_get]. rewrite H.
    reflexivity.
  - intros H. unfold _import_identity, bind, lift, raise. cbn [py_get].
    destruct H as [H | H]; rewrite H; cbn [negb orb]; [| rewrite orb_true_r];
      reflexivity.
Qed.

(** X13. What [_load_identity] does with a passphrase, once the keystore
    module is imported. If the keystore returns an identity, that identity
    replaces whatever was loaded, the other fields of the bridge stay, and
    the result describes it. If the keystore raises (a wrong passphrase,
    no file), the handler raises the same exception and the bridge, with
    the identity it had, is unchanged. *)
Theorem load_identity_replaces_or_keeps
    (m : machine) (items : list (string * json)) (w1 w2 : World)
    (answer : outcome Identity) :
  truthy (dict_get items "passphrase" (JStr EmptyString)) = true ->
  import_module src_storage_keystore (world m) = (w1, Return tt) ->
  KeyStore_load (path_join (data_dir (self m)) "keystore.enc")
                (dict_get items "passphrase" (JStr EmptyString)) w1 = (w2, answer) ->
  match answer with
  | Return i =>
      fst (_load_identity (JObj items) m) = Return (identity_info i)
      /\ self (snd (_load_identity (JObj items) m))
         = {| data_dir := data_dir (self m); _identity := Some i;
              _contacts := _contacts (self m); _relay_client := _relay_client (self m);
              _tor_manager := _tor_manager (self m);
              _cover_traffic := _cover_traffic (self m);
              _running := _running (self m) |}
  | Raise e =>
      fst (_load_identity (JObj items) m) = Raise e
      /\ self (snd (_load_identity (JObj items) m)) = self m
  end.
Proof.
  intros Hpw Himp Hload.
  unfold _load_identity, bind, lift, raise, import_, perform, get_self, set_identity,
    put_self, ret.
  cbn [py_get]. rewrite Hpw. cbn [negb]. rewrite Himp.
  cbn beta iota zeta delta [fst snd self world log]. rewrite Hload.
  destruct answer; split; reflexivity.
Qed.

(** X14. [_generate_identity] loads only what it has saved: when it
    returns, the keystore has accepted the identity now loaded, under the
    passphrase given, which is truthy, at [data_dir/keystore.enc], and
    the call is in the log. *)
Theorem generated_identity_was_saved
    (params : json) (m m' : machine) (r : json) :
  _generate_identity params m = (Return r, m') ->
  exists i passphrase w w',
    _identity (self m') = Some i
    /\ r = identity_info i
    /\ py_get params "passphrase" (JStr EmptyString) = Return passphrase
    /\ truthy passphrase = true
    /\ KeyStore_save (path_join (data_dir (self m)) "keystore.enc") i passphrase w
       = (w', Return tt)
    /\ world m' = w'
    /\ In (CallKeyStoreSave (path_join (data_dir (self m)) "keystore.enc") passphrase)
          (log m').
Proof.
  open_handler; intros H; inversion H; subst; clear H.
  match goal with
  | Hs : KeyStore_save _ ?i ?pw ?w = (?w', Return ?u) |- _ =>
      destruct u; exists i, pw, w, w'
  end.
  repeat split; try assumption.
  - match goal with Hb : negb (truthy _) = false |- _ =>
      apply negb_false_iff in Hb; exact Hb end.
  - cbn. apply in_or_app. right. left. reflexivity.
Qed.

(** *** Messaging handlers *)

(** X15. [_send_voice_message] with an identity loaded. With a
    [contact_id] in the params it returns a voice message whose id is the
    uuid drawn and whose [voice_data_path] is [file_path], the empty
    string when there is none. Without [contact_id] it raises [KeyError];
    the uuid has been drawn all the same, since the id is made before the
    params are read. Either way the bridge object is untouched. *)
Theorem send_voice_message_draws_then_reads
    (m : machine) (items : list (string * json)) (i : Identity) :
  _identity (self m) = Some i ->
  let after := {| self := self m; world := fst (uuid4 (world m));
                  log := log m ++ [CallUuid4] |} in
  (forall contact_id, lookup "contact_id" items = Some contact_id ->
     _send_voice_message (JObj items) m
       = (Return (JObj [("id", JStr (snd (uuid4 (world m))));
                        ("contact_id", contact_id);
                        ("is_outgoing", JBool true);
                        ("type", JStr "voice");
                        ("voice_data_path", dict_get items "file_path" (JStr EmptyString));
                        ("delivery_status", JStr "sent");
                        ("sequence_index", JInt 0)]),
          after))
  /\ (lookup "contact_id" items = None ->
        _send_voice_message (JObj items) m = (Raise (KeyError "contact_id"), after)).
Proof.
  intros Hid after. subst after.
  unfold _send_voice_message, bind, get_self, lift, perform, ret. rewrite Hid.
  cbn beta iota zeta delta [fst snd self world log py_getitem py_get].
  destruct (uuid4 (world m)) as [w u].
  split; [intros contact_id H | intros H]; rewrite H; reflexivity.
Qed.

(** X16. [_send_message] reads before it draws: whenever it raises (no
    identity, a missing [contact_id] or [text], params that are no dict)
    the machine is exactly as before, no uuid drawn and nothing logged. *)
Theorem send_message_failure_is_clean (params : json) (m : machine) (e : exn) :
  fst (_send_message params m) = Raise e ->
  snd (_send_message params m) = m.
Proof.
  open_handler; intros H; first [discriminate H | reflexivity].
Qed.

(** *** Contact handlers *)

(** X17. [_add_contact] with the store already open. Once the contacts
    module is imported, the contact is added through the
    [ContactManager] already held, none is built, with [label] and
    [public_key] as given and [onion_address] and [mailbox_id] the empty
    string when absent; the handler's outcome is that of the store, and
    the bridge object is untouched. *)
Theorem add_contact_uses_the_open_store
    (m : machine) (items : list (string * json)) (cm : ContactManager)
    (label public_key : json) (w1 : World) :
  _contacts (self m) = Some cm ->
  import_module src_client_contacts (world m) = (w1, Return tt) ->
  lookup "label" items = Some label ->
  lookup "public_key" items = Some public_key ->
  let onion_address := dict_get items "onion_address" (JStr EmptyString) in
  let mailbox_id := dict_get items "mailbox_id" (JStr EmptyString) in
  let answer := ContactManager_add cm label public_key onion_address mailbox_id w1 in
  _add_contact (JObj items) m
    = (snd answer,
       {| self := self m;
          world := fst answer;
          log := (log m ++ [CallImport src_client_contacts])
                 ++ [CallContactsAdd label public_key onion_address mailbox_id] |}).
Proof.
  intros Hcm Himp Hlabel Hpk onion_address mailbox_id answer.
  subst onion_address mailbox_id answer.
  unfold _add_contact, ensure_contacts, import_, bind, get_self, lift, perform, ret.
  rewrite Himp. cbn beta iota zeta delta [fst snd self world log]. rewrite Hcm.
  cbn beta iota zeta delta [fst snd self world log py_getitem py_get].
  rewrite Hlabel, Hpk.
  destruct (ContactManager_add cm label public_key _ _ w1). reflexivity.
Qed.

(** X18. The store is open after the first success: when [_add_contact]
    or [_list_contacts] returns, whatever the params, [_contacts] holds a
    [ContactManager]; it is the one held before if there was one. *)
Theorem contacts_are_open_after_add_or_list
    (params : json) (m m' : machine) (r : json) :
  _add_contact params m = (Return r, m') \/ _list_contacts params m = (Return r, m') ->
  exists cm,
    _contacts (self m') = Some cm
    /\ (forall cm0, _contacts (self m) = Some cm0 -> cm = cm0).
Proof.
  intros [H | H]; revert H; open_handler; intros H; inversion H; subst; clear H;
    eexists; (split; [cbn; first [eassumption | reflexivity] |]);
    intros cm0 Hcm0; congruence.
Qed.


(** *** Requests that need something first *)






(** *** Responses in the order of the requests *)



End Further.

(** ** The further properties on concrete input *)

(** X3 on a poll followed by a shutdown. *)
Lemma run_app_witness :
  let poll := Sample.frame (Sample.request 6 "poll_mailbox" (JObj [])) in
  let stop := Sample.frame (Sample.request 5 "shutdown" (JObj [])) in
  before_eof [poll]
  /\ run ([poll] ++ [stop]) Sample.booted = run [stop] (run [poll] Sample.booted).
Proof.
  intros poll stop.
  assert (H : before_eof [poll]) by (repeat constructor).
  split; [exact H |].
  exact (run_app (core := Sample.installed) [stop] Sample.booted H).
Defined.

(** X5 after a [generate_identity], through a [send_message]. *)
Lemma identity_stays_loaded_witness :
  let p := iteration
             (Sample.frame (Sample.request 7 "generate_identity"
                              (JObj [("passphrase", JStr "hunter2")])))
             Sample.booted in
  let stdin := [Sample.frame
                  (Sample.request 8 "send_message"
                     (JObj [("contact_id", JStr "c1"); ("text", JStr "hi")]))] in
  _identity (self (vm p)) <> None
  /\ _identity (self (vm (run stdin p))) <> None.
Proof.
  intros p stdin.
  assert (H : _identity (self (vm p)) <> None) by (intros H; discriminate H).
  split; [exact H |].
  exact (identity_stays_loaded (core := Sample.installed) stdin p H).
Defined.

(** X6 after an [add_contact] that failed once the store was open. *)
Lemma contacts_handle_is_kept_witness :
  let p := iteration (Sample.frame (Sample.request 2 "add_contact" (JObj [])))
             Sample.booted in
  let stdin := [Sample.frame (Sample.request 6 "poll_mailbox" (JObj []))] in
  _contacts (self (vm p)) = Some tt
  /\ _contacts (self (vm (run stdin p))) = Some tt.
Proof.
  intros p stdin.
  assert (H : _contacts (self (vm p)) = Some tt) by reflexivity.
  split; [exact H |].
  exact (contacts_handle_is_kept (core := Sample.installed) stdin p H).
Defined.

(** X8 at a shutdown request. *)
Lemma only_shutdown_stops_the_loop_witness :
  let line := Sample.frame (Sample.request 5 "shutdown" (JObj [])) in
  _running (self (vm Sample.booted)) = true
  /\ _running (self (vm (iteration line Sample.booted))) = false
  /\ exists request,
       json_loads (Collaborators := Sample.installed) (strip line) = Return (JObj request)
       /\ method_of request = JStr "shutdown".
Proof.
  intros line.
  assert (H1 : _running (self (vm Sample.booted)) = true) by reflexivity.
  assert (H2 : _running (self (vm (iteration line Sample.booted))) = false)
    by reflexivity.
  split; [exact H1 |]. split; [exact H2 |].
  exact (only_shutdown_stops_the_loop (core := Sample.installed) line Sample.booted H1 H2).
Defined.

(** X9 at a [generate_identity] without passphrase. *)
Lemma failed_handler_leaves_the_bridge_witness :
  let m := vm Sample.booted in
  lookup "generate_identity" (_methods (core := Sample.installed))
    = Some _generate_identity
  /\ builds_contacts "generate_identity" = false
  /\ fst (_generate_identity (JObj []) m) = Raise (ValueError "Passphrase is required")
  /\ self (snd (_generate_identity (JObj []) m)) = self m.
Proof.
  intros m.
  assert (H1 : lookup "generate_identity" (_methods (core := Sample.installed))
               = Some _generate_identity) by reflexivity.
  assert (H2 : builds_contacts "generate_identity" = false) by reflexivity.
  assert (H3 : fst (_generate_identity (JObj []) m)
               = Raise (ValueError "Passphrase is required")) by reflexivity.
  split; [exact H1 |]. split; [exact H2 |]. split; [exact H3 |].
  exact (failed_handler_leaves_the_bridge (core := Sample.installed)
           "generate_identity" (JObj []) m H1 H2 H3).
Defined.

(** X10 at [send_message]. *)
Lemma contact_store_is_for_contact_methods_witness :
  lookup "send_message" (_methods (core := Sample.installed)) = Some _send_message
  /\ contact_method "send_message" = false
  /\ calls_only (core := Sample.installed) (fun c => negb (touches_contacts c))
       (_send_message (JObj [("contact_id", JStr "c1"); ("text", JStr "hi")])).
Proof.
  assert (H1 : lookup "send_message" (_methods (core := Sample.installed))
               = Some _send_message) by reflexivity.
  assert (H2 : contact_method "send_message" = false) by reflexivity.
  split; [exact H1 |]. split; [exact H2 |].
  exact (contact_store_is_for_contact_methods (core := Sample.installed)
           "send_message" _ H1 H2).
Defined.

(** X11 at [import_identity]. *)
Lemma keystore_is_for_generate_and_load_witness :
  lookup "import_identity" (_methods (core := Sample.installed))
    = Some _import_identity
  /\ keystore_method "import_identity" = false
  /\ calls_only (core := Sample.installed) (fun c => negb (touches_keystore c))
       (_import_identity (JObj [("passphrase", JStr "hunter2")])).
Proof.
  assert (H1 : lookup "import_identity" (_methods (core := Sample.installed))
               = Some _import_identity) by reflexivity.
  assert (H2 : keystore_method "import_identity" = false) by reflexivity.
  split; [exact H1 |]. split; [exact H2 |].
  exact (keystore_is_for_generate_and_load (core := Sample.installed)
           "import_identity" _ H1 H2).
Defined.

(** X12 at params without passphrase, and with a null one. *)
Lemma load_and_import_validate_first_witness :
  let m := vm Sample.booted in
  _load_identity (JObj [("passphrase", JNull)]) m
    = (Raise (ValueError "Passphrase is required"), m)
  /\ _import_identity (JObj [("import_data", JStr "{}")]) m
     = (Raise (ValueError "Import data and passphrase required"), m).
Proof.
  intros m.
  pose proof (load_and_import_validate_first (core := Sample.installed) m
                [("passphrase", JNull)]) as [H1 _].
  pose proof (load_and_import_validate_first (core := Sample.installed) m
                [("import_data", JStr "{}")]) as [_ H2].
  split; [exact (H1 eq_refl) | exact (H2 (or_intror eq_refl))].
Defined.

(** X13 after a [generate_identity]: the passphrase it was saved under
    loads it back. *)
Lemma load_identity_replaces_or_keeps_witness :
  let m := snd (_generate_identity (JObj [("passphrase", JStr "hunter2")])
                  (vm Sample.booted)) in
  let items := [("passphrase", JStr "hunter2")] in
  truthy (dict_get items "passphrase" (JStr EmptyString)) = true
  /\ fst (_load_identity (JObj items) m)
     = Return (identity_info (core := Sample.installed) Sample.generated_identity)
  /\ _identity (self (snd (_load_identity (JObj items) m)))
     = Some Sample.generated_identity.
Proof.
  intros m items.
  assert (H1 : truthy (dict_get items "passphrase" (JStr EmptyString)) = true)
    by reflexivity.
  split; [exact H1 |].
  pose proof (@load_identity_replaces_or_keeps Sample.installed m items
                (world m) (world m) (Return Sample.generated_identity)
                H1 eq_refl eq_refl) as [H2 H3].
  split; [exact H2 |]. rewrite H3. reflexivity.
Defined.

(** X14 at the passphrase [hunter2]. *)
Lemma generated_identity_was_saved_witness :
  let params := JObj [("passphrase", JStr "hunter2")] in
  let m := vm Sample.booted in
  let m' := snd (_generate_identity params m) in
  _generate_identity params m
    = (Return (identity_info (core := Sample.installed) Sample.generated_identity), m')
  /\ In (CallKeyStoreSave "data/keystore.enc" (JStr "hunter2")) (log m')
  /\ Sample.keystore (world m') = Some (Sample.generated_identity, JStr "hunter2").
Proof.
  intros params m m'.
  assert (H : _generate_identity params m
              = (Return (identity_info (core := Sample.installed)
                           Sample.generated_identity), m')) by reflexivity.
  split; [exact H |].
  destruct (generated_identity_was_saved (core := Sample.installed) _ _ H)
    as [i [pw [w [w' [_ [_ [Hpw [_ [_ [_ Hin]]]]]]]]]].
  split; [| reflexivity].
  cbn in Hpw. inversion Hpw; subst pw. exact Hin.
Defined.

(** X15 after a [generate_identity], with no [file_path]. *)
Lemma send_voice_message_draws_then_reads_witness :
  let m := snd (_generate_identity (JObj [("passphrase", JStr "hunter2")])
                  (vm Sample.booted)) in
  _identity (self m) = Some Sample.generated_identity
  /\ fst (_send_voice_message (JObj [("contact_id", JStr "c1")]) m)
     = Return (JObj [("id", JStr "3f2b8c1e-0000-4000-8000-100000000000");
                     ("contact_id", JStr "c1");
                     ("is_outgoing", JBool true);
                     ("type", JStr "voice");
                     ("voice_data_path", JStr EmptyString);
                     ("delivery_status", JStr "sent");
                     ("sequence_index", JInt 0)])
  /\ _send_voice_message (JObj []) m
     = (Raise (KeyError "contact_id"),
        {| self := self m; world := fst (uuid4 (world m)); log := log m ++ [CallUuid4] |})
  /\ Sample.uuids (world (snd (_send_voice_message (JObj []) m))) = 1.
Proof.
  intros m.
  assert (H : _identity (self m) = Some Sample.generated_identity) by reflexivity.
  split; [exact H |].
  pose proof (send_voice_message_draws_then_reads (core := Sample.installed) m
                [("contact_id", JStr "c1")] H) as [H1 _].
  pose proof (send_voice_message_draws_then_reads (core := Sample.installed) m
                [] H) as [_ H2].
  split; [rewrite (H1 (JStr "c1") eq_refl); reflexivity |].
  split; [exact (H2 eq_refl) | reflexivity].
Defined.

(** X16 before any identity is loaded. *)
Lemma send_message_failure_is_clean_witness :
  let m := vm Sample.booted in
  fst (_send_message (JObj []) m) = Raise (ValueError "No identity loaded")
  /\ snd (_send_message (JObj []) m) = m.
Proof.
  intros m.
  assert (H : fst (_send_message (JObj []) m) = Raise (ValueError "No identity loaded"))
    by reflexivity.
  split; [exact H |].
  exact (send_message_failure_is_clean (core := Sample.installed) (JObj []) m H).
Defined.

(** X17 once a first [add_contact] has opened the store. *)
Lemma add_contact_uses_the_open_store_witness :
  let m := snd (_add_contact (JObj []) (vm Sample.booted)) in
  let items := [("label", JStr "Ada"); ("public_key", JStr "a1b2")] in
  _contacts (self m) = Some tt
  /\ fst (_add_contact (JObj items) m)
     = Return (Sample.contact 0 (JStr "Ada") (JStr "a1b2") (JStr EmptyString)
                 (JStr EmptyString))
  /\ log (snd (_add_contact (JObj items) m))
     = (log m ++ [CallImport src_client_contacts])
       ++ [CallContactsAdd (JStr "Ada") (JStr "a1b2") (JStr EmptyString)
             (JStr EmptyString)].
Proof.
  intros m items.
  assert (H : _contacts (self m) = Some tt) by reflexivity.
  split; [exact H |].
  rewrite (@add_contact_uses_the_open_store Sample.installed m items tt
             (JStr "Ada") (JStr "a1b2") (world m) H eq_refl eq_refl eq_refl).
  split; reflexivity.
Defined.

(** X18 at a first [list_contacts]. *)
Lemma contacts_are_open_after_add_or_list_witness :
  let m := vm Sample.booted in
  let m' := snd (_list_contacts (JObj []) m) in
  _list_contacts (JObj []) m = (Return (JObj [("contacts", JArr [])]), m')
  /\ _contacts (self m) = None
  /\ exists cm, _contacts (self m') = Some cm.
Proof.
  intros m m'.
  assert (H : _list_contacts (JObj []) m = (Return (JObj [("contacts", JArr [])]), m'))
    by reflexivity.
  split; [exact H |]. split; [reflexivity |].
  destruct (@contacts_are_open_after_add_or_list Sample.installed (JObj []) m m'
              (JObj [("contacts", JArr [])]) (or_intror H)) as [cm [Hcm _]].
  exists cm. exact Hcm.
Defined.




